(** * ZJJTools/main.py: the medication-education service, embedded in Rocq

    The development follows [src/ZJJTools/main.py]:

    - Python [str] values are lists of Unicode code points;
    - the calls into [re] and [json] made by [self_refine_education] are
      written out as functions on such lists;
    - [chat] is the only effect: it performs one exchange with the upstream
      completion endpoint.  The endpoint is a parameter; every exchange is
      appended to a log, and a failing exchange raises;
    - the three FastAPI routes are functions from the inbound JSON payload
      to a response, with the body validation FastAPI performs from the
      declared pydantic models in front of the endpoint functions. *)

From Stdlib Require Import List NArith ZArith QArith String Ascii Bool Lia.
From Equations Require Import Equations.
Import ListNotations.

Set Implicit Arguments.
Set Warnings "-register-all".

(** ** Text *)

(** A Python [str]: a sequence of code points. *)
#[warnings="-notation-for-abbreviation"]
Notation char := N (only parsing).
#[warnings="-notation-for-abbreviation"]
Notation str := (list N) (only parsing).

Module Text.

Open Scope N_scope.

(** Source literals are written as Rocq strings (UTF-8 bytes) and decoded
    to code points; [acc] holds the bits of a sequence in progress and
    [need] the number of continuation bytes still expected. *)
Fixpoint utf8_go (acc : N) (need : nat) (bs : list N) : str :=
  match bs with
  | [] => []
  | b :: r =>
      match need with
      | S k =>
          let acc' := acc * 64 + b mod 64 in
          match k with
          | O => acc' :: utf8_go 0 0%nat r
          | _ => utf8_go acc' k r
          end
      | O =>
          if b <? 128 then b :: utf8_go 0 0%nat r
          else if b <? 224 then utf8_go (b mod 32) 1%nat r
          else if b <? 240 then utf8_go (b mod 16) 2%nat r
          else utf8_go (b mod 8) 3%nat r
      end
  end.

Definition u8 (s : string) : str :=
  utf8_go 0 0%nat (List.map N_of_ascii (list_ascii_of_string s)).

Definition DQUOTE : char := 34.
Definition APOSTROPHE : char := 39.

(** Test inputs that contain double quotes are written with apostrophes
    in their place. *)
Definition py (s : string) : str :=
  List.map (fun c => if c =? APOSTROPHE then DQUOTE else c) (u8 s).

Definition LBRACE : char := 123.
Definition RBRACE : char := 125.
Definition LBRACKET : char := 91.
Definition RBRACKET : char := 93.
Definition BACKSLASH : char := 92.
Definition SPACE : char := 32.
Definition TAB : char := 9.
Definition LF : char := 10.
Definition CR : char := 13.
Definition COLON : char := 58.
Definition COMMA : char := 44.

Fixpoint str_eqb (a b : str) : bool :=
  match a, b with
  | [], [] => true
  | x :: a', y :: b' => (x =? y) && str_eqb a' b'
  | _, _ => false
  end.

(** [s.startswith(p)] *)
Fixpoint startswith (p s : str) : bool :=
  match p, s with
  | [], _ => true
  | x :: p', y :: s' => (x =? y) && startswith p' s'
  | _ :: _, [] => false
  end.

(** [str.isspace] on one code point: the ASCII table and the code points
    with the Unicode White_Space property or bidirectional class WS, B
    or S, as CPython's [Py_UNICODE_ISSPACE] has them. *)
Definition isspace (c : char) : bool :=
  ((9 <=? c) && (c <=? 13)) || ((28 <=? c) && (c <=? 32))
  || (c =? 133) || (c =? 160) || (c =? 5760)
  || ((8192 <=? c) && (c <=? 8202))
  || (c =? 8232) || (c =? 8233) || (c =? 8239) || (c =? 8287)
  || (c =? 12288).

Fixpoint lstrip (s : str) : str :=
  match s with
  | [] => []
  | c :: r => if isspace c then lstrip r else s
  end.

Definition rstrip (s : str) : str := rev (lstrip (rev s)).

(** [s.strip()] *)
Definition strip (s : str) : str := rstrip (lstrip s).

End Text.
Import Text.

(** ** The three regular expressions of [self_refine_education] *)

Module Re.

Open Scope N_scope.

Definition fence : str := Eval compute in u8 "```".
Definition fence_json : str := Eval compute in u8 "```json".

(** [re.sub(r"```json|```", "", s)]: the scan goes left to right; where
    the first alternative matches it is taken, else the second; a match
    is deleted and the scan resumes behind it; elsewhere the character
    is kept. *)
Equations? remove_fences (s : str) : str by wf (List.length s) lt :=
  remove_fences [] := [];
  remove_fences (c :: r) with startswith fence_json (c :: r) := {
    | true := remove_fences (skipn 6 r)
    | false with startswith fence (c :: r) := {
        | true := remove_fences (skipn 2 r)
        | false := c :: remove_fences r } }.
Proof.
  - change (List.length (skipn 6 r) < S (List.length r))%nat.
    rewrite length_skipn; lia.
  - change (List.length (skipn 2 r) < S (List.length r))%nat.
    rewrite length_skipn; lia.
Qed.

(** The tail of [r"\{.*\}"] behind the opening brace, with [re.DOTALL]:
    [.*] is greedy, so the match that consumes [c] and continues is
    preferred; when the rest offers no closing brace the engine backs
    off and [c] itself has to be the closing brace. *)
Fixpoint match_dotstar_rbrace (r : str) : option str :=
  match r with
  | [] => None
  | c :: r' =>
      match match_dotstar_rbrace r' with
      | Some m => Some (c :: m)
      | None => if c =? RBRACE then Some [c] else None
      end
  end.

(** [re.search(r"\{.*\}", s, re.DOTALL)]: start positions are tried from
    the left; [Some] carries [m.group(0)]. *)
Fixpoint search_braces (s : str) : option str :=
  match s with
  | [] => None
  | c :: r =>
      if c =? LBRACE then
        match match_dotstar_rbrace r with
        | Some m => Some (c :: m)
        | None => search_braces r
        end
      else search_braces r
  end.

Definition is_nrt (c : char) : bool := (c =? LF) || (c =? CR) || (c =? TAB).

(** [re.sub(r"[\n\r\t]", " ", s)] *)
Definition blank_controls (s : str) : str :=
  List.map (fun c => if is_nrt c then SPACE else c) s.

End Re.
Import Re.

(** ** Python values and exceptions *)

(** What [json.loads] can return.  A [float] keeps the text it was read
    from; a [dict] keeps its keys in insertion order, each once. *)
Inductive value :=
| VNone
| VBool (b : bool)
| VInt (z : Z)
| VFloat (lexeme : str)
| VStr (s : str)
| VList (xs : list value)
| VDict (items : list (str * value)).

(** The messages of [json.JSONDecodeError], without the position. *)
Inductive json_error :=
| ExpectingValue
| ExtraData
| UnexpectedBOM
| UnterminatedString
| InvalidControlCharacter
| InvalidEscape
| InvalidUnicodeEscape
| ExpectingPropertyName
| ExpectingColonDelimiter
| ExpectingCommaDelimiter.

(** The exceptions of the program; all of them are subclasses of
    [Exception].  [UpstreamError] stands for whatever the exchange inside
    [chat] raises (transport failure, timeout, [raise_for_status], a reply
    of the wrong shape).  [HTTPException] carries the exception whose text
    is its [detail]. *)
Inductive exn :=
| StopIteration
| RecursionError
| JSONDecodeError (msg : json_error)
| RuntimeError (msg : str)
| AttributeError
| UpstreamError (what : str)
| HTTPException (status_code : Z) (detail : exn).

Inductive result (A : Type) :=
| Ok (a : A)
| Raise (e : exn).
Arguments Ok {A} a.
Arguments Raise {A} e.

Definition rbind {A B} (r : result A) (k : A -> result B) : result B :=
  match r with
  | Ok a => k a
  | Raise e => Raise e
  end.

Declare Scope result_scope.
Delimit Scope result_scope with result.
Notation "' p <- r ;; k" := (rbind r (fun x => match x with p => k end))
  (at level 61, p pattern, r at next level, right associativity) : result_scope.
Notation "x <- r ;; k" := (rbind r (fun x => k))
  (at level 61, r at next level, right associativity) : result_scope.

(** ** [dict] *)

Module Dict.

Definition t := list (str * value).

(** [d[k] = v]: an existing key keeps its place. *)
Fixpoint set (k : str) (v : value) (d : t) : t :=
  match d with
  | [] => [(k, v)]
  | (k', v') :: d' =>
      if str_eqb k' k then (k', v) :: d' else (k', v') :: set k v d'
  end.

(** [dict(pairs)] *)
Definition of_pairs (pairs : list (str * value)) : t :=
  fold_left (fun d kv => set (fst kv) (snd kv) d) pairs [].

Fixpoint lookup (k : str) (d : t) : option value :=
  match d with
  | [] => None
  | (k', v) :: d' => if str_eqb k' k then Some v else lookup k d'
  end.

(** [d.get(k, default)] *)
Definition get (k : str) (default : value) (d : t) : value :=
  match lookup k d with
  | Some v => v
  | None => default
  end.

End Dict.

(** ** [json.loads]

    The decoder of the standard library with its default settings
    ([strict=True], no hooks), as CPython's scanner reads a [str].  Not
    modelled: the conversion of a [float] lexeme to a double, the limit on
    the number of digits of an [int], and the interpreter's recursion
    limit. *)

Module Json.

Open Scope N_scope.
Open Scope result_scope.

(** The whitespace of JSON: space, tab, line feed, carriage return. *)
Definition is_ws (c : char) : bool :=
  (c =? SPACE) || (c =? TAB) || (c =? LF) || (c =? CR).

Fixpoint skip_ws (s : str) : str :=
  match s with
  | [] => []
  | c :: r => if is_ws c then skip_ws r else s
  end.

Definition is_digit (c : char) : bool := (48 <=? c) && (c <=? 57).

Definition hex_digit (c : char) : option N :=
  if is_digit c then Some (c - 48)
  else if (97 <=? c) && (c <=? 102) then Some (c - 87)
  else if (65 <=? c) && (c <=? 70) then Some (c - 55)
  else None.

Definition hex4 (a b c d : char) : option N :=
  match hex_digit a, hex_digit b, hex_digit c, hex_digit d with
  | Some x, Some y, Some z, Some w => Some (((x * 16 + y) * 16 + z) * 16 + w)
  | _, _, _, _ => None
  end.

(** The one-letter escapes. *)
Definition unescape (c : char) : option char :=
  if c =? DQUOTE then Some DQUOTE
  else if c =? BACKSLASH then Some BACKSLASH
  else if c =? 47 then Some 47
  else if c =? 98 then Some 8
  else if c =? 102 then Some 12
  else if c =? 110 then Some LF
  else if c =? 114 then Some CR
  else if c =? 116 then Some TAB
  else None.

Definition is_high_surrogate (c : N) : bool := (55296 <=? c) && (c <=? 56319).
Definition is_low_surrogate (c : N) : bool := (56320 <=? c) && (c <=? 57343).
Definition join_surrogates (hi lo : N) : N :=
  65536 + ((hi - 55296) * 1024 + (lo - 56320)).

(** [scanstring]: [s] starts behind the opening quote; the result is the
    decoded text and what follows the closing quote.  A raw character
    below U+0020 is refused.  A [\u] escape needs four hexadecimal digits
    and a character behind them; a high surrogate directly followed by
    an escaped low surrogate is joined with it. *)
Fixpoint scanstring (s : str) : result (str * str) :=
  match s with
  | [] => Raise (JSONDecodeError UnterminatedString)
  | c :: r =>
      if c =? DQUOTE then Ok ([], r)
      else if c =? BACKSLASH then
        match r with
        | [] => Raise (JSONDecodeError UnterminatedString)
        | e :: r1 =>
            if e =? 117 then
              match r1 with
              | h1 :: h2 :: h3 :: h4 :: ((_ :: _) as r2) =>
                  match hex4 h1 h2 h3 h4 with
                  | None => Raise (JSONDecodeError InvalidUnicodeEscape)
                  | Some hi =>
                      match r2 with
                      | b :: u :: g1 :: g2 :: g3 :: g4 :: ((_ :: _) as r3) =>
                          if is_high_surrogate hi && (b =? BACKSLASH) && (u =? 117)
                          then
                            match hex4 g1 g2 g3 g4 with
                            | None => Raise (JSONDecodeError InvalidUnicodeEscape)
                            | Some lo =>
                                if is_low_surrogate lo then
                                  '(t, rest) <- scanstring r3 ;;
                                  Ok (join_surrogates hi lo :: t, rest)
                                else
                                  '(t, rest) <- scanstring r2 ;;
                                  Ok (hi :: t, rest)
                            end
                          else
                            '(t, rest) <- scanstring r2 ;;
                            Ok (hi :: t, rest)
                      | _ =>
                          '(t, rest) <- scanstring r2 ;;
                          Ok (hi :: t, rest)
                      end
                  end
              | _ => Raise (JSONDecodeError InvalidUnicodeEscape)
              end
            else
              match unescape e with
              | None => Raise (JSONDecodeError InvalidEscape)
              | Some ch =>
                  '(t, rest) <- scanstring r1 ;;
                  Ok (ch :: t, rest)
              end
        end
      else if c <=? 31 then Raise (JSONDecodeError InvalidControlCharacter)
      else
        '(t, rest) <- scanstring r ;;
        Ok (c :: t, rest)
  end.

Fixpoint span_digits (s : str) : str * str :=
  match s with
  | [] => ([], [])
  | c :: r =>
      if is_digit c then let '(ds, rest) := span_digits r in (c :: ds, rest)
      else ([], s)
  end.

Definition decimal (ds : str) : Z :=
  fold_left (fun acc c => (acc * 10 + Z.of_N (c - 48))%Z) ds 0%Z.

(** The optional minus sign: whether it stands there, and the rest. *)
Definition match_sign (s : str) : bool * str :=
  match s with
  | c :: r => if c =? 45 then (true, r) else (false, s)
  | [] => (false, s)
  end.

(** The digits of the integer part, [0] or a digit run that does not
    start with [0], and the rest. *)
Definition match_digits (s : str) : option (str * str) :=
  match s with
  | c :: r =>
      if c =? 48 then Some ([c], r)
      else if is_digit c then
        let '(ds, rest) := span_digits r in Some (c :: ds, rest)
      else None
  | [] => None
  end.

(** The optional fraction: a dot and at least one digit. *)
Definition match_fraction (s : str) : str * str :=
  match s with
  | dot :: d :: r =>
      if (dot =? 46) && is_digit d then
        let '(ds, rest) := span_digits r in (dot :: d :: ds, rest)
      else ([], s)
  | _ => ([], s)
  end.

(** The optional exponent: [e] or [E], an optional sign, at least one
    digit. *)
Definition match_exponent (s : str) : str * str :=
  match s with
  | e :: r =>
      if (e =? 101) || (e =? 69) then
        match r with
        | sg :: d :: r' =>
            if ((sg =? 45) || (sg =? 43)) && is_digit d then
              let '(ds, rest) := span_digits r' in (e :: sg :: d :: ds, rest)
            else if is_digit sg then
              let '(ds, rest) := span_digits (d :: r') in (e :: sg :: ds, rest)
            else ([], s)
        | [d] => if is_digit d then ([e; d], []) else ([], s)
        | [] => ([], s)
        end
      else ([], s)
  | [] => ([], s)
  end.

(** A number: an [int] when it has neither fraction nor exponent. *)
Definition match_number (s : str) : result (value * str) :=
  let '(neg, s1) := match_sign s in
  match match_digits s1 with
  | None => Raise StopIteration
  | Some (ds, r1) =>
      let '(frac, r2) := match_fraction r1 in
      let '(expo, r3) := match_exponent r2 in
      match frac, expo with
      | [], [] => Ok (VInt (if neg then - decimal ds else decimal ds)%Z, r3)
      | _, _ => Ok (VFloat ((if neg then [45] else []) ++ ds ++ frac ++ expo), r3)
      end
  end.

Definition lit_null : str := Eval compute in u8 "null".
Definition lit_true : str := Eval compute in u8 "true".
Definition lit_false : str := Eval compute in u8 "false".
Definition lit_NaN : str := Eval compute in u8 "NaN".
Definition lit_Infinity : str := Eval compute in u8 "Infinity".
Definition lit_neg_Infinity : str := Eval compute in u8 "-Infinity".

Definition literal (s : str) : option (value * str) :=
  if startswith lit_null s then Some (VNone, skipn 4 s)
  else if startswith lit_true s then Some (VBool true, skipn 4 s)
  else if startswith lit_false s then Some (VBool false, skipn 5 s)
  else if startswith lit_NaN s then Some (VFloat lit_NaN, skipn 3 s)
  else if startswith lit_Infinity s then Some (VFloat lit_Infinity, skipn 8 s)
  else if startswith lit_neg_Infinity s then
    Some (VFloat lit_neg_Infinity, skipn 9 s)
  else None.

(** [scan_once], with the loops of [JSONObject] and [JSONArray].  Every
    nested call spends one unit of [fuel]; [raw_decode] provides more than
    twice the length of the text, which is never used up
    ([scan_once_fuel] below).

    [members] starts at a property name, [elements] at a value; [acc]
    holds what the loop has read, last first. *)
Fixpoint scan_once (fuel : nat) (s : str) : result (value * str) :=
  match fuel with
  | O => Raise RecursionError
  | S fuel' =>
      match s with
      | [] => Raise StopIteration
      | c :: r =>
          if c =? DQUOTE then
            '(t, rest) <- scanstring r ;; Ok (VStr t, rest)
          else if c =? LBRACE then
            match skip_ws r with
            | c' :: r' =>
                if c' =? RBRACE then Ok (VDict [], r')
                else members fuel' (c' :: r') []
            | [] => Raise (JSONDecodeError ExpectingPropertyName)
            end
          else if c =? LBRACKET then
            match skip_ws r with
            | c' :: r' =>
                if c' =? RBRACKET then Ok (VList [], r')
                else elements fuel' (c' :: r') []
            | [] => Raise StopIteration
            end
          else
            match literal s with
            | Some found => Ok found
            | None => match_number s
            end
      end
  end

with members (fuel : nat) (s : str) (acc : list (str * value))
  : result (value * str) :=
  match fuel with
  | O => Raise RecursionError
  | S fuel' =>
      match s with
      | [] => Raise (JSONDecodeError ExpectingPropertyName)
      | q :: r =>
          if q =? DQUOTE then
            '(key, r1) <- scanstring r ;;
            match skip_ws r1 with
            | [] => Raise (JSONDecodeError ExpectingColonDelimiter)
            | col :: r2 =>
                if col =? COLON then
                  '(v, r3) <- scan_once fuel' (skip_ws r2) ;;
                  match skip_ws r3 with
                  | [] => Raise (JSONDecodeError ExpectingCommaDelimiter)
                  | d :: r4 =>
                      if d =? RBRACE then
                        Ok (VDict (Dict.of_pairs (rev ((key, v) :: acc))), r4)
                      else if d =? COMMA then
                        members fuel' (skip_ws r4) ((key, v) :: acc)
                      else Raise (JSONDecodeError ExpectingCommaDelimiter)
                  end
                else Raise (JSONDecodeError ExpectingColonDelimiter)
            end
          else Raise (JSONDecodeError ExpectingPropertyName)
      end
  end

with elements (fuel : nat) (s : str) (acc : list value)
  : result (value * str) :=
  match fuel with
  | O => Raise RecursionError
  | S fuel' =>
      '(v, r1) <- scan_once fuel' s ;;
      match skip_ws r1 with
      | [] => Raise (JSONDecodeError ExpectingCommaDelimiter)
      | d :: r2 =>
          if d =? RBRACKET then Ok (VList (rev (v :: acc)), r2)
          else if d =? COMMA then elements fuel' (skip_ws r2) (v :: acc)
          else Raise (JSONDecodeError ExpectingCommaDelimiter)
      end
  end.

(** [JSONDecoder.raw_decode]: [StopIteration] becomes "Expecting value". *)
Definition raw_decode (s : str) : result (value * str) :=
  match scan_once (S (2 * List.length s)) s with
  | Raise StopIteration => Raise (JSONDecodeError ExpectingValue)
  | other => other
  end.

(** [json.loads(s)] for a [str]: no byte order mark in front, one value
    between optional whitespace, nothing behind it. *)
Definition loads (s : str) : result value :=
  if startswith [65279] s then Raise (JSONDecodeError UnexpectedBOM)
  else
    '(obj, rest) <- raw_decode (skip_ws s) ;;
    match skip_ws rest with
    | [] => Ok obj
    | _ :: _ => Raise (JSONDecodeError ExtraData)
    end.

End Json.

(** ** [json.dumps] of the patient record

    [json.dumps(d, ensure_ascii=False)] and
    [json.dumps(d, ensure_ascii=False, indent=2)] for a [dict] whose keys
    and values are [str], which is what [Patient.dict()] hands over. *)

Module Dumps.

Open Scope N_scope.

Definition hex_lower (d : N) : char := if d <? 10 then 48 + d else 87 + d.

(** The replacement of one character inside a string: the two-character
    escapes, [\u00xx] for the other characters below U+0020, the
    character itself otherwise. *)
Definition escape_char (c : char) : str :=
  if c =? BACKSLASH then [BACKSLASH; BACKSLASH]
  else if c =? DQUOTE then [BACKSLASH; DQUOTE]
  else if c =? 8 then [BACKSLASH; 98]
  else if c =? 12 then [BACKSLASH; 102]
  else if c =? LF then [BACKSLASH; 110]
  else if c =? CR then [BACKSLASH; 114]
  else if c =? TAB then [BACKSLASH; 116]
  else if c <? 32 then [BACKSLASH; 117; 48; 48; hex_lower (c / 16); hex_lower (c mod 16)]
  else [c].

Definition encode_basestring (s : str) : str :=
  DQUOTE :: flat_map escape_char s ++ [DQUOTE].

Fixpoint join (sep : str) (xs : list str) : str :=
  match xs with
  | [] => []
  | [x] => x
  | x :: rest => x ++ sep ++ join sep rest
  end.

Definition item (kv : str * str) : str :=
  encode_basestring (fst kv) ++ [COLON; SPACE] ++ encode_basestring (snd kv).

Definition dumps (d : list (str * str)) : str :=
  match d with
  | [] => [LBRACE; RBRACE]
  | _ => [LBRACE] ++ join [COMMA; SPACE] (List.map item d) ++ [RBRACE]
  end.

Definition dumps_indent2 (d : list (str * str)) : str :=
  match d with
  | [] => [LBRACE; RBRACE]
  | _ =>
      [LBRACE; LF; SPACE; SPACE]
      ++ join [COMMA; LF; SPACE; SPACE] (List.map item d)
      ++ [LF; RBRACE]
  end.

End Dumps.

(** ** The completion endpoint and the effect of calling it *)

Record message := { role : str; content : str }.

(** One [client.post]: the address, the headers, the three entries of
    [payload], and the timeout. *)
Record request := {
  url : str;
  headers : list (str * str);
  model : str;
  messages : list message;
  temperature : Q;
  timeout : Z
}.

(** The exchanges made so far, oldest first. *)
Definition log := list request.

(** What the program takes from outside.
    - [GITHUB_TOKEN]: the credential line 15 reads from the process
      environment (or its default);
    - [upstream]: the outcome of one exchange (the post, [raise_for_status]
      and the selection of [choices[0].message.content] from the reply,
      a text by the contract of the endpoint), which may depend on the
      exchanges before it;
    - [str_of_other]: the text Python's [format] gives for a value that is
      not a [str];
    - [number_as_text]: what the installed pydantic does with a JSON number
      or boolean in a field declared [str] (its first major version turns
      it into text, its second refuses it). *)
Record env := {
  GITHUB_TOKEN : str;
  upstream : log -> request -> result str;
  str_of_other : value -> str;
  number_as_text : value -> option str
}.

(** A computation of the program: it extends the log and returns or
    raises. *)
Definition M (A : Type) : Type := log -> result A * log.

Definition ret {A} (a : A) : M A := fun lg => (Ok a, lg).

Definition raise {A} (e : exn) : M A := fun lg => (Raise e, lg).

Definition lift {A} (r : result A) : M A := fun lg => (r, lg).

Definition bind {A B} (m : M A) (k : A -> M B) : M B :=
  fun lg =>
    match m lg with
    | (Ok a, lg') => k a lg'
    | (Raise e, lg') => (Raise e, lg')
    end.

(** [try: m except Exception as e: h e] *)
Definition try_except {A} (m : M A) (h : exn -> M A) : M A :=
  fun lg =>
    match m lg with
    | (Ok a, lg') => (Ok a, lg')
    | (Raise e, lg') => h e lg'
    end.

Declare Scope M_scope.
Delimit Scope M_scope with M.
Notation "x <- m ;; k" := (bind m (fun x => k))
  (at level 61, m at next level, right associativity) : M_scope.

Module Service.

Open Scope N_scope.

Definition ENDPOINT : str := u8 "https://models.inference.ai.azure.com".
Definition MODEL : str := u8 "gpt-4o".

Definition user (prompt : str) : list message :=
  [{| role := u8 "user"; content := prompt |}].

Definition v1_head : str :=
  u8 "
你是儿科临床药师，请按以下模板写一份用药教育，所有小标题内容用“- ”清单呈现。
患者：".

Definition v1_tail : str :=
  u8 "

模板：
前言（尊敬的XX家长，您好！您的孩子因<原因>，需口服<药名>，该药为<类别>。为了……特此沟通。）

1. 药物作用和目的
2. 剂量和给药时间
3. 不良反应监测
4. 药物相互作用
5. 储存管理
6. 生活方式建议

如有疑问请随时联系儿科医生或药师……祝孩子早日康复！
".

Definition critique_head : str :=
  u8 "你是资深儿科临床药师。
请用 3-5 句话、专业且通俗地指出下方 V1 用药教育在准确性、完整性或家长易读性上的具体不足（不要出现模板字面量）。

【患者信息】
".

Definition critique_mid : str :=
  u8 "

【V1 用药教育】
".

Definition critique_tail : str :=
  u8 "
输出要求（严格执行）：
- 返回内容只能是**一行纯 JSON**，禁止出现 Markdown 围栏、禁止多行文本；
- 所有长文本里的换行、制表符必须转义成 \n、\t；
- 结构如下：
{"
  ++ [DQUOTE]
  ++ u8 "feedback"
  ++ [DQUOTE]
  ++ u8 ":"
  ++ [DQUOTE]
  ++ u8 "真实评价"
  ++ [DQUOTE]
  ++ u8 "}".

Definition v3_head : str :=
  u8 "你是儿科临床药师。
请根据下方「V1 内容」和「审方反馈」重写一份完整、准确、家长友好的 V3 用药教育，必须满足：

1. 禁止出现任何 Markdown 符号（如 ###、***、** 等）；
2. 标题仅用中文数字序号（如“1. 药物作用和目的”），下方用“- ”引出清单；
3. 包含且仅包含以下 6 个小节：
   - 前言（原因、药名、类别、祝愿）
   - 1. 药物作用和目的
   - 2. 剂量和给药时间（含漏服处理、分剂量操作）
   - 3. 不良反应监测（≥3 条常见表现）
   - 4. 药物相互作用（简洁提醒）
   - 5. 储存管理（温度、避光、有效期）
   - 6. 生活方式建议（饮食、作息、复诊）
   - 如有疑问请随时联系儿科医生或药师，我们将持续为您和孩子的健康保驾护航。祝孩子早日康复！
4. 全文不要再出现任何额外解释或总结。

【患者信息】
".

Definition v3_mid : str :=
  u8 "

【V1 内容】
".

Definition v3_feedback : str :=
  u8 "

【审方反馈】
".

Definition v3_tail : str :=
  u8 "

直接输出最终用药教育全文，不要额外解释。
".

(** The text of the [RuntimeError] raised when no brace span is found. *)
Definition no_json_structure : str := u8 "LLM 未返回合法 JSON 结构".

(** [class Patient(BaseModel)] *)
Record Patient := {
  姓名 : str;
  年龄 : str;
  性别 : str;
  诊断 : str;
  药品 : str;
  用量 : str
}.

(** [class V1Request(BaseModel)] *)
Record V1Request := { v1_patient : Patient }.

(** [class RefineRequest(BaseModel)] *)
Record RefineRequest := { patient : Patient; v1 : str }.

(** [Patient.dict()] *)
Definition Patient_dict (p : Patient) : list (str * str) :=
  [ (u8 "姓名", 姓名 p); (u8 "年龄", 年龄 p); (u8 "性别", 性别 p);
    (u8 "诊断", 诊断 p); (u8 "药品", 药品 p); (u8 "用量", 用量 p) ].

(** Lines 84 to 90 of [self_refine_education]: from the reply of the
    model to the value of its ["feedback"] entry. *)
Definition extract_feedback (content : str) : result value :=
  let content := strip (remove_fences content) in
  match search_braces content with
  | None => Raise (RuntimeError no_json_structure)
  | Some group0 =>
      let json_str := blank_controls group0 in
      (obj <- Json.loads json_str ;;
       match obj with
       | VDict d => Ok (Dict.get (u8 "feedback") (VStr []) d)
       | _ => Raise AttributeError
       end)%result
  end.

(** The brace span lines 84 and 85 locate in a reply, if any. *)
Definition located_span (content : str) : option str :=
  search_braces (strip (remove_fences content)).

(** A replacement field of an f-string. *)
Definition format_value (str_of_other : value -> str) (v : value) : str :=
  match v with
  | VStr s => s
  | _ => str_of_other v
  end.

Section WithEnv.

Variable E : env.

Definition HEADERS : list (str * str) :=
  [ (u8 "Authorization", u8 "Bearer " ++ GITHUB_TOKEN E);
    (u8 "Content-Type", u8 "application/json") ].

Open Scope M_scope.

(** The request [chat] posts. *)
Definition chat_request (messages : list message) (temp : Q) : request :=
  {| url := ENDPOINT ++ u8 "/chat/completions";
     headers := HEADERS;
     model := MODEL;
     messages := messages;
     temperature := temp;
     timeout := 60 |}.

(** [async def chat(messages, temp=0)]: one exchange, logged whatever its
    outcome. *)
Definition chat (messages : list message) (temp : Q) : M str :=
  fun lg =>
    let rq := chat_request messages temp in
    (upstream E lg rq, lg ++ [rq]).

Definition v1_prompt (patient : list (str * str)) : str :=
  v1_head ++ Dumps.dumps patient ++ v1_tail.

(** [async def generate_v1(patient)] *)
Definition generate_v1 (patient : list (str * str)) : M str :=
  chat (user (v1_prompt patient)) 0.2.

Definition critique_prompt (patient : list (str * str)) (v1 : str) : str :=
  critique_head ++ Dumps.dumps_indent2 patient ++ critique_mid ++ v1
  ++ critique_tail.

(** [async def self_refine_education(patient, v1)] *)
Definition self_refine_education (patient : list (str * str)) (v1 : str)
  : M value :=
  content <- chat (user (critique_prompt patient v1)) 0 ;;
  lift (extract_feedback content).

Definition v3_prompt (patient : list (str * str)) (v1 : str)
  (feedback : value) : str :=
  v3_head ++ Dumps.dumps_indent2 patient ++ v3_mid ++ v1 ++ v3_feedback
  ++ format_value (str_of_other E) feedback ++ v3_tail.

(** [async def generate_v3(patient, v1, feedback)] *)
Definition generate_v3 (patient : list (str * str)) (v1 : str)
  (feedback : value) : M str :=
  chat (user (v3_prompt patient v1 feedback)) 0.2.

(** [@app.post("/api/v1")] *)
Definition api_v1 (req : V1Request) : M value :=
  try_except
    (v1 <- generate_v1 (Patient_dict (v1_patient req)) ;;
     ret (VDict [(u8 "v1", VStr v1)]))
    (fun e => raise (HTTPException 500 e)).

(** [@app.post("/api/refine")] *)
Definition api_refine (req : RefineRequest) : M value :=
  try_except
    (feedback <- self_refine_education (Patient_dict (patient req)) (v1 req) ;;
     v3 <- generate_v3 (Patient_dict (patient req)) (v1 req) feedback ;;
     ret (VDict [(u8 "feedback", feedback); (u8 "v3", VStr v3)]))
    (fun e => raise (HTTPException 500 e)).

(** [@app.get("/ping")] *)
Definition ping : M value := ret (VStr (u8 "pong")).

(** *** The boundary FastAPI puts in front of the endpoint functions

    The body of a POST is validated against the pydantic model named in
    the signature before the endpoint function is called; a body that does
    not validate is answered by FastAPI's handler for
    [RequestValidationError] with status 422, and [main.py] installs no
    other handler.  An [HTTPException] raised by the endpoint function is
    answered with its status code and detail. *)

Definition validate_str (v : value) : option str :=
  match v with
  | VStr s => Some s
  | VInt _ | VFloat _ | VBool _ => number_as_text E v
  | VNone | VList _ | VDict _ => None
  end.

Definition field (k : str) (d : Dict.t) : option str :=
  match Dict.lookup k d with
  | Some v => validate_str v
  | None => None
  end.

Definition validate_Patient (v : value) : option Patient :=
  match v with
  | VDict d =>
      match field (u8 "姓名") d, field (u8 "年龄") d, field (u8 "性别") d,
            field (u8 "诊断") d, field (u8 "药品") d, field (u8 "用量") d with
      | Some a, Some b, Some c, Some x, Some y, Some z =>
          Some {| 姓名 := a; 年龄 := b; 性别 := c; 诊断 := x; 药品 := y; 用量 := z |}
      | _, _, _, _, _, _ => None
      end
  | _ => None
  end.

Definition validate_V1Request (body : value) : option V1Request :=
  match body with
  | VDict d =>
      match Dict.lookup (u8 "patient") d with
      | Some p =>
          match validate_Patient p with
          | Some pt => Some {| v1_patient := pt |}
          | None => None
          end
      | None => None
      end
  | _ => None
  end.

Definition validate_RefineRequest (body : value) : option RefineRequest :=
  match body with
  | VDict d =>
      match Dict.lookup (u8 "patient") d, field (u8 "v1") d with
      | Some p, Some draft =>
          match validate_Patient p with
          | Some pt => Some {| patient := pt; v1 := draft |}
          | None => None
          end
      | _, _ => None
      end
  | _ => None
  end.

Inductive response_body :=
| Content (v : value)
| Detail (e : exn)
| ValidationErrors
| InternalServerError.

Record response := { status : Z; body : response_body }.

Definition respond (outcome : result value) : response :=
  match outcome with
  | Ok v => {| status := 200; body := Content v |}
  | Raise (HTTPException code detail) => {| status := code; body := Detail detail |}
  | Raise _ => {| status := 500; body := InternalServerError |}
  end.

Definition route {R} (validate : value -> option R) (endpoint : R -> M value)
  (payload : value) : log -> response * log :=
  fun lg =>
    match validate payload with
    | None => ({| status := 422; body := ValidationErrors |}, lg)
    | Some req => let '(outcome, lg') := endpoint req lg in (respond outcome, lg')
    end.

Definition post_api_v1 : value -> log -> response * log :=
  route validate_V1Request api_v1.

Definition post_api_refine : value -> log -> response * log :=
  route validate_RefineRequest api_refine.

Definition get_ping : log -> response * log :=
  fun lg => let '(outcome, lg') := ping lg in (respond outcome, lg').

End WithEnv.

End Service.
Import Service.

(** ** Vocabulary of the statements *)

Module Shape.

Open Scope N_scope.







(** [subseq t s]: [t] is [s] with some characters left out. *)
Inductive subseq : str -> str -> Prop :=
| subseq_nil : subseq [] []
| subseq_skip x t s : subseq t s -> subseq t (x :: s)
| subseq_keep x t s : subseq t s -> subseq (x :: t) (x :: s).

(** A reply has a brace span when an opening brace stands before a
    closing one. *)
Definition has_brace_span (s : str) : Prop :=
  exists a b c, s = a ++ LBRACE :: b ++ RBRACE :: c.


(** The outcomes of the scanners: a result, [StopIteration] or a
    [JSONDecodeError]. *)
Definition decoder_outcome {A} (r : result A) : Prop :=
  match r with
  | Ok _ | Raise StopIteration | Raise (JSONDecodeError _) => True
  | Raise _ => False
  end.

Definition is_VStr (v : value) : bool :=
  match v with
  | VStr _ => true
  | _ => false
  end.

(** The names of the six fields of [Patient]. *)
Definition patient_fields : list str :=
  [u8 "姓名"; u8 "年龄"; u8 "性别"; u8 "诊断"; u8 "药品"; u8 "用量"].

(** The requests [api_refine] sends for a body [req]: the one of the
    feedback stage and, for an extracted [feedback], the one of the refine
    stage. *)
Definition critique_rq (E : env) (req : RefineRequest) : request :=
  chat_request E
    (user (critique_prompt (Patient_dict (patient req)) (v1 req))) 0.

Definition v3_rq (E : env) (req : RefineRequest) (feedback : value) : request :=
  chat_request E
    (user (v3_prompt E (Patient_dict (patient req)) (v1 req) feedback)) 0.2.

(** *** Sample surroundings

    An endpoint that answers every request with the same reply, one that
    always fails, and a validator that refuses numbers in text fields. *)

Definition env_replying (reply : str) : env :=
  {| GITHUB_TOKEN := u8 "token";
     upstream := fun _ _ => Ok reply;
     str_of_other := fun _ => u8 "<value>";
     number_as_text := fun _ => None |}.

Definition env_failing : env :=
  {| GITHUB_TOKEN := u8 "token";
     upstream := fun _ _ => Raise (UpstreamError (u8 "timed out"));
     str_of_other := fun _ => u8 "<value>";
     number_as_text := fun _ => None |}.

Definition sample_body : str :=
  Eval vm_compute in u8 "dose unclear;" ++ [10%N] ++ u8 "add storage advice".


(** A reply whose only braces stand in the wrong order. *)
Definition sample_no_span : str :=
  Eval vm_compute in u8 "The draft is fine } nothing to add {".

(** The reply of the specification: a line feed between [ok] and [line]
    inside the quotes. *)
Definition newline_span : str :=
  Eval vm_compute in py "{'feedback':'ok" ++ [10%N] ++ py "line'}".
Definition newline_reply : str :=
  Eval vm_compute in u8 "blah " ++ newline_span ++ u8 " blah".

(** Replies whose object lacks the entry, or holds an object there. *)
Definition sample_no_field : str :=
  Eval vm_compute in py "Result: {'score': 3, 'notes': []}".
Definition sample_no_field_span : str :=
  Eval vm_compute in py "{'score': 3, 'notes': []}".
Definition sample_nested : str :=
  Eval vm_compute in py "{'feedback': {'score': 3, 'ok': null}}".

Definition sample_patient : Patient :=
  {| 姓名 := u8 "小明"; 年龄 := u8 "5"; 性别 := u8 "男";
     诊断 := u8 "支气管炎"; 药品 := u8 "阿莫西林"; 用量 := u8 "5ml每日两次" |}.

(** The sample patient as a payload, without the entry for the dosage. *)
Definition patient_without_dosage : Dict.t :=
  [ (u8 "姓名", VStr (u8 "小明")); (u8 "年龄", VStr (u8 "5"));
    (u8 "性别", VStr (u8 "男")); (u8 "诊断", VStr (u8 "支气管炎"));
    (u8 "药品", VStr (u8 "阿莫西林")) ].

Definition sample_request : RefineRequest :=
  {| patient := sample_patient; v1 := u8 "draft" |}.

Definition sample_payload : value :=
  VDict [ (u8 "patient",
           VDict (patient_without_dosage ++ [(u8 "用量", VStr (u8 "5ml每日两次"))]));
          (u8 "v1", VStr (u8 "draft")) ].

Definition payload_without_dosage : Dict.t :=
  [(u8 "patient", VDict patient_without_dosage)].

End Shape.
Import Shape.

Unset Implicit Arguments.

(** * Properties *)

(** ** Text *)

Section TextFacts.

Open Scope N_scope.

Lemma startswith_app p s t :
  startswith p s = true -> startswith p (s ++ t) = true.
Proof.
  revert s; induction p as [|x p IH]; intros [|y s]; simpl; auto; try discriminate.
  intros H; apply andb_true_iff in H as [-> H]; simpl; auto.
Qed.


Lemma startswith_length p s :
  startswith p s = true -> (List.length p <= List.length s)%nat.
Proof.
  revert s; induction p as [|x p IH]; intros [|y s]; simpl; try lia; try discriminate.
  intros H; apply andb_true_iff in H as [_ H]; apply IH in H; lia.
Qed.

Lemma lstrip_suffix s : exists a, s = a ++ lstrip s.
Proof.
  induction s as [|c r [a Ha]]; simpl.
  - exists []; reflexivity.
  - destruct (isspace c).
    + exists (c :: a); simpl; f_equal; exact Ha.
    + exists []; reflexivity.
Qed.

Lemma rstrip_prefix s : exists c, s = rstrip s ++ c.
Proof.
  unfold rstrip. destruct (lstrip_suffix (rev s)) as [a Ha].
  exists (rev a). rewrite <- rev_app_distr, <- Ha, rev_involutive. reflexivity.
Qed.

Lemma strip_infix s : exists a c, s = a ++ strip s ++ c.
Proof.
  unfold strip. destruct (lstrip_suffix s) as [a Ha].
  destruct (rstrip_prefix (lstrip s)) as [c Hc].
  exists a, c. rewrite <- Hc. exact Ha.
Qed.





End TextFacts.

(** ** The regular expressions *)

Section ReFacts.

Open Scope N_scope.

Lemma remove_fences_cons c r :
  remove_fences (c :: r) =
    if startswith fence_json (c :: r) then remove_fences (skipn 6 r)
    else if startswith fence (c :: r) then remove_fences (skipn 2 r)
    else c :: remove_fences r.
Proof.
  simp remove_fences.
  destruct (startswith fence_json (c :: r)); simpl; [reflexivity|].
  destruct (startswith fence (c :: r)); reflexivity.
Qed.

(** Induction on the length of the text, as the scan consumes it. *)
Lemma str_length_ind (P : str -> Prop) :
  (forall s, (forall t, (List.length t < List.length s)%nat -> P t) -> P s) ->
  forall s, P s.
Proof.
  intros step s.
  assert (H : forall n t, (List.length t < n)%nat -> P t).
  { induction n as [|n IH]; intros t Ht; [lia|].
    apply step. intros u Hu. apply IH. lia. }
  apply (H (S (List.length s))). lia.
Qed.

Lemma skipn_shorter {A} n (x : A) r :
  (List.length (skipn n r) < List.length (x :: r))%nat.
Proof. rewrite length_skipn. simpl. lia. Qed.







Lemma match_dotstar_rbrace_None r :
  ~ In RBRACE r -> match_dotstar_rbrace r = None.
Proof.
  induction r as [|c r IH]; simpl; [reflexivity|].
  intros H. rewrite IH by tauto.
  destruct (N.eqb_spec c RBRACE) as [->|]; [tauto | reflexivity].
Qed.


Lemma search_braces_None s :
  (forall a b c, s <> a ++ LBRACE :: b ++ RBRACE :: c) ->
  search_braces s = None.
Proof.
  induction s as [|x r IH]; [reflexivity|].
  intros H. simpl.
  assert (Hr : search_braces r = None).
  { apply IH. intros a b c E. apply (H (x :: a) b c). simpl. f_equal. exact E. }
  destruct (N.eqb_spec x LBRACE) as [->|]; [|exact Hr].
  rewrite match_dotstar_rbrace_None; [exact Hr|].
  intros Hin. apply in_split in Hin as (b & c & E).
  apply (H [] b c). simpl. f_equal. exact E.
Qed.


End ReFacts.

(** ** The decoder *)

Section JsonFacts.

Open Scope N_scope.



Lemma blank_controls_app a b :
  blank_controls (a ++ b) = blank_controls a ++ blank_controls b.
Proof. apply map_app. Qed.







End JsonFacts.

(** ** Locating and reading a feedback object *)

Section ExtractFacts.

Open Scope N_scope.












Lemma extract_feedback_located content :
  extract_feedback content =
    match located_span content with
    | None => Raise (RuntimeError no_json_structure)
    | Some group0 =>
        rbind (Json.loads (blank_controls group0))
          (fun obj =>
             match obj with
             | VDict d => Ok (Dict.get (u8 "feedback") (VStr []) d)
             | _ => Raise AttributeError
             end)
    end.
Proof. reflexivity. Qed.


End ExtractFacts.

(** ** Replies without a brace span *)

Section SpanFacts.

Lemma subseq_skipn n t s : subseq t (skipn n s) -> subseq t s.
Proof.
  revert s; induction n as [|n IH]; intros [|y s] H; simpl in H; auto.
  apply subseq_skip, IH, H.
Qed.

Lemma remove_fences_subseq s : subseq (remove_fences s) s.
Proof.
  induction s as [s IH] using str_length_ind.
  destruct s as [|x r]; [simp remove_fences; constructor|].
  rewrite remove_fences_cons.
  destruct (startswith fence_json (x :: r)).
  - apply subseq_skip, (subseq_skipn 6), IH, skipn_shorter.
  - destruct (startswith fence (x :: r)).
    + apply subseq_skip, (subseq_skipn 2), IH, skipn_shorter.
    + apply subseq_keep, IH. simpl. lia.
Qed.

Lemma subseq_app_l s : forall a t,
  subseq (a ++ t) s -> exists s1 s2, s = s1 ++ s2 /\ subseq t s2.
Proof.
  induction s as [|y s IH]; intros a t H.
  - inversion H as [E| |]. symmetry in E. apply app_eq_nil in E as [-> ->].
    exists [], []. split; [reflexivity | constructor].
  - inversion H as [|x u s' Hu|x u s' Hu E Ex].
    + apply IH in Hu as (s1 & s2 & -> & Hs). exists (y :: s1), s2. auto.
    + destruct a as [|z a]; simpl in E.
      * exists [], (y :: s). split; [reflexivity|]. rewrite <- E, Ex.
        apply subseq_keep, Hu.
      * injection E as Ez Eu. rewrite Eu in Hu.
        apply IH in Hu as (s1 & s2 & -> & Hs).
        exists (y :: s1), s2. auto.
Qed.

Lemma subseq_cons_l s : forall x t,
  subseq (x :: t) s -> exists s1 s2, s = s1 ++ x :: s2 /\ subseq t s2.
Proof.
  induction s as [|y s IH]; intros x t H; inversion H as [|z u s' Hu|z u s' Hu Ez].
  - apply IH in Hu as (s1 & s2 & -> & Hs). exists (y :: s1), s2. auto.
  - exists [], s. auto.
Qed.

Lemma has_brace_span_subseq t s :
  subseq t s -> has_brace_span t -> has_brace_span s.
Proof.
  intros Hsub (a & b & c & ->).
  apply subseq_app_l in Hsub as (s1 & s2 & -> & H).
  apply subseq_cons_l in H as (s3 & s4 & -> & H).
  apply subseq_app_l in H as (s5 & s6 & -> & H).
  apply subseq_cons_l in H as (s7 & s8 & -> & _).
  exists (s1 ++ s3), (s5 ++ s7), s8.
  repeat (rewrite <- app_assoc; cbn [app]). reflexivity.
Qed.

Lemma has_brace_span_strip s : has_brace_span (strip s) -> has_brace_span s.
Proof.
  intros (a & b & c & E). destruct (strip_infix s) as (p & q & Hs).
  exists (p ++ a), b, (c ++ q). rewrite Hs, E.
  repeat (rewrite <- app_assoc; cbn [app]). reflexivity.
Qed.

Lemma located_span_None content :
  ~ has_brace_span content -> located_span content = None.
Proof.
  intros H. unfold located_span. apply search_braces_None.
  intros a b c E. apply H.
  apply (has_brace_span_subseq (remove_fences content)); [apply remove_fences_subseq|].
  apply has_brace_span_strip. exists a, b, c. exact E.
Qed.

Lemma match_dotstar_rbrace_In r :
  In RBRACE r -> match_dotstar_rbrace r <> None.
Proof.
  induction r as [|c r IH]; simpl; [tauto|].
  intros [->|H].
  - destruct (match_dotstar_rbrace r); discriminate.
  - destruct (match_dotstar_rbrace r); [discriminate | elim (IH H); reflexivity].
Qed.

Lemma has_brace_span_search s : has_brace_span s -> search_braces s <> None.
Proof.
  intros (a & b & c & ->). induction a as [|x a IH]; simpl.
  - destruct (match_dotstar_rbrace (b ++ RBRACE :: c)) eqn:Hm; [discriminate|].
    exfalso. apply (match_dotstar_rbrace_In (b ++ RBRACE :: c)); [|exact Hm].
    apply in_or_app. right. left. reflexivity.
  - destruct (x =? LBRACE)%N; [|exact IH].
    destruct (match_dotstar_rbrace (a ++ LBRACE :: b ++ RBRACE :: c));
      [discriminate | exact IH].
Qed.

End SpanFacts.

(** ** The fuel of the decoder *)

Section FuelFacts.

Open Scope N_scope.

Lemma skip_ws_le s : (List.length (Json.skip_ws s) <= List.length s)%nat.
Proof.
  induction s as [|c r IH]; simpl; [lia|].
  destruct (Json.is_ws c); simpl; lia.
Qed.

Lemma rbind_Ok {A B} (r : result A) (k : A -> result B) b :
  rbind r k = Ok b -> exists a, r = Ok a /\ k a = Ok b.
Proof. destruct r as [a|e]; simpl; [eauto | discriminate]. Qed.

(** What [scanstring] leaves is shorter than what it was given. *)
Lemma scanstring_shorter s : forall t r,
  Json.scanstring s = Ok (t, r) -> (List.length r < List.length s)%nat.
Proof.
  induction s as [s IH] using str_length_ind. intros t r.
  assert (step : forall s' (f : str -> str),
            (List.length s' < List.length s)%nat ->
            rbind (Json.scanstring s') (fun x => let '(t0, rest) := x in Ok (f t0, rest))
            = Ok (t, r) ->
            (List.length r < List.length s)%nat).
  { intros s' f Hlen H. apply rbind_Ok in H as ([t0 rest] & Hs & Hk).
    injection Hk as _ <-. apply IH in Hs; [lia | exact Hlen]. }
  destruct s as [|c s1]; [discriminate|].
  cbn [Json.scanstring].
  destruct (c =? DQUOTE).
  { intros H. injection H as _ <-. simpl. lia. }
  destruct (c =? BACKSLASH).
  2:{ destruct (c <=? 31); [discriminate|].
      apply (step s1 (cons c)). simpl. lia. }
  destruct s1 as [|e s2]; [discriminate|].
  destruct (e =? 117).
  2:{ destruct (Json.unescape e) as [ch|]; [|discriminate].
      apply (step s2 (cons ch)). simpl. lia. }
  destruct s2 as [|h1 [|h2 [|h3 [|h4 [|x s3]]]]]; try discriminate.
  destruct (Json.hex4 h1 h2 h3 h4) as [hi|]; [|discriminate].
  assert (alone : rbind (Json.scanstring (x :: s3))
                    (fun x0 => let '(t0, rest) := x0 in Ok (hi :: t0, rest))
                  = Ok (t, r) ->
                  (List.length r < List.length (c :: e :: h1 :: h2 :: h3 :: h4 :: x :: s3))%nat).
  { apply (step (x :: s3) (cons hi)). simpl. lia. }
  destruct s3 as [|u [|g1 [|g2 [|g3 [|g4 [|y s4]]]]]]; try exact alone.
  destruct (Json.is_high_surrogate hi && (x =? BACKSLASH) && (u =? 117));
    [|exact alone].
  destruct (Json.hex4 g1 g2 g3 g4) as [lo|]; [|discriminate].
  destruct (Json.is_low_surrogate lo); [|exact alone].
  apply (step (y :: s4) (cons (Json.join_surrogates hi lo))). simpl. lia.
Qed.

Lemma span_digits_le s :
  (List.length (snd (Json.span_digits s)) <= List.length s)%nat.
Proof.
  induction s as [|c r IH]; simpl; [lia|].
  destruct (Json.is_digit c); [|simpl; lia].
  destruct (Json.span_digits r) as [ds rest]. simpl in *. lia.
Qed.

Lemma match_sign_le s :
  (List.length (snd (Json.match_sign s)) <= List.length s)%nat.
Proof.
  destruct s as [|c r]; simpl; [lia|]. destruct (c =? 45); simpl; lia.
Qed.

Lemma match_digits_shorter s ds r :
  Json.match_digits s = Some (ds, r) -> (List.length r < List.length s)%nat.
Proof.
  destruct s as [|c r0]; [discriminate|]. cbn [Json.match_digits].
  destruct (c =? 48).
  - intros H. injection H as _ <-. simpl. lia.
  - destruct (Json.is_digit c); [|discriminate].
    pose proof (span_digits_le r0) as Hle.
    destruct (Json.span_digits r0) as [ds0 rest].
    intros H. injection H as _ <-. simpl in *. lia.
Qed.

Lemma match_fraction_le s :
  (List.length (snd (Json.match_fraction s)) <= List.length s)%nat.
Proof.
  unfold Json.match_fraction.
  destruct s as [|dot [|d r]]; simpl; try lia.
  destruct ((dot =? 46) && Json.is_digit d); [|simpl; lia].
  pose proof (span_digits_le r). destruct (Json.span_digits r). simpl in *. lia.
Qed.

Lemma match_exponent_le s :
  (List.length (snd (Json.match_exponent s)) <= List.length s)%nat.
Proof.
  unfold Json.match_exponent.
  destruct s as [|e r]; [simpl; lia|].
  destruct ((e =? 101) || (e =? 69)); [|simpl; lia].
  destruct r as [|sg [|d r']]; [simpl; lia | |].
  - destruct (Json.is_digit sg); simpl; lia.
  - destruct (((sg =? 45) || (sg =? 43)) && Json.is_digit d).
    + pose proof (span_digits_le r'). destruct (Json.span_digits r'). simpl in *. lia.
    + destruct (Json.is_digit sg); [|simpl; lia].
      pose proof (span_digits_le (d :: r')).
      destruct (Json.span_digits (d :: r')). simpl in *. lia.
Qed.

Lemma match_number_shorter s v r :
  Json.match_number s = Ok (v, r) -> (List.length r < List.length s)%nat.
Proof.
  unfold Json.match_number.
  pose proof (match_sign_le s) as Hs.
  destruct (Json.match_sign s) as [neg s1]. simpl in Hs.
  destruct (Json.match_digits s1) as [[ds r1]|] eqn:Hi; [|discriminate].
  apply match_digits_shorter in Hi.
  pose proof (match_fraction_le r1) as Hf.
  destruct (Json.match_fraction r1) as [frac r2].
  pose proof (match_exponent_le r2) as He.
  destruct (Json.match_exponent r2) as [expo r3].
  simpl in Hf, He.
  destruct frac, expo; intros H; injection H as _ <-; lia.
Qed.

Lemma Some_pair_snd {A B} (a c : A) (b d : B) :
  Some (a, b) = Some (c, d) -> b = d.
Proof. congruence. Qed.

Ltac literal_case lit s :=
  let Hp := fresh "Hp" in
  let H := fresh "H" in
  let Hv := fresh "Hv" in
  let Hr := fresh "Hr" in
  destruct (startswith lit s) eqn:Hp;
  [ apply startswith_length in Hp; vm_compute (List.length lit) in Hp;
    intros H; apply Some_pair_snd in H; rewrite <- H, length_skipn; lia | ].

Lemma literal_shorter s v r :
  Json.literal s = Some (v, r) -> (List.length r < List.length s)%nat.
Proof.
  unfold Json.literal.
  literal_case Json.lit_null s.
  literal_case Json.lit_true s.
  literal_case Json.lit_false s.
  literal_case Json.lit_NaN s.
  literal_case Json.lit_Infinity s.
  literal_case Json.lit_neg_Infinity s.
  discriminate.
Qed.

Lemma skip_ws_cons_le s c r :
  Json.skip_ws s = c :: r -> (S (List.length r) <= List.length s)%nat.
Proof. intros H. pose proof (skip_ws_le s) as Hle. rewrite H in Hle. exact Hle. Qed.

(** Every scanner consumes at least one character. *)
Lemma scan_shorter fuel :
  (forall s v r, Json.scan_once fuel s = Ok (v, r) ->
                 (List.length r < List.length s)%nat)
  /\ (forall s acc v r, Json.members fuel s acc = Ok (v, r) ->
                        (List.length r < List.length s)%nat)
  /\ (forall s acc v r, Json.elements fuel s acc = Ok (v, r) ->
                        (List.length r < List.length s)%nat).
Proof.
  induction fuel as [|fuel (IHs & IHm & IHe)];
    [repeat split; intros; discriminate|].
  split; [|split].
  - intros [|c s] v r; [discriminate|]. cbn [Json.scan_once].
    destruct (c =? DQUOTE).
    { intros H. apply rbind_Ok in H as ([t rest] & Hs & Hk).
      apply scanstring_shorter in Hs. injection Hk as _ <-. simpl. lia. }
    destruct (c =? LBRACE).
    { destruct (Json.skip_ws s) as [|c' r'] eqn:Hw; [discriminate|].
      apply skip_ws_cons_le in Hw.
      destruct (c' =? RBRACE).
      - intros H. injection H as _ <-. simpl. lia.
      - intros H. apply IHm in H. simpl in *. lia. }
    destruct (c =? LBRACKET).
    { destruct (Json.skip_ws s) as [|c' r'] eqn:Hw; [discriminate|].
      apply skip_ws_cons_le in Hw.
      destruct (c' =? RBRACKET).
      - intros H. injection H as _ <-. simpl. lia.
      - intros H. apply IHe in H. simpl in *. lia. }
    destruct (Json.literal (c :: s)) as [[v0 r0]|] eqn:Hl.
    + intros H. injection H as _ <-. apply literal_shorter in Hl. exact Hl.
    + apply match_number_shorter.
  - intros [|q s] acc v r; [discriminate|]. cbn [Json.members].
    destruct (q =? DQUOTE); [|discriminate].
    intros H. apply rbind_Ok in H as ([key r1] & Hs & H).
    apply scanstring_shorter in Hs.
    destruct (Json.skip_ws r1) as [|col r2] eqn:Hw1; [discriminate|].
    apply skip_ws_cons_le in Hw1.
    destruct (col =? COLON); [|discriminate].
    apply rbind_Ok in H as ([v1 r3] & Hv & H).
    apply IHs in Hv. pose proof (skip_ws_le r2) as Hw2.
    destruct (Json.skip_ws r3) as [|d r4] eqn:Hw3; [discriminate|].
    apply skip_ws_cons_le in Hw3.
    destruct (d =? RBRACE).
    + injection H as _ <-. simpl. lia.
    + destruct (d =? COMMA); [|discriminate].
      apply IHm in H. pose proof (skip_ws_le r4). simpl. lia.
  - intros s acc v r. cbn [Json.elements].
    intros H. apply rbind_Ok in H as ([v1 r1] & Hv & H).
    apply IHs in Hv.
    destruct (Json.skip_ws r1) as [|d r2] eqn:Hw; [discriminate|].
    apply skip_ws_cons_le in Hw.
    destruct (d =? RBRACKET).
    + injection H as _ <-. lia.
    + destruct (d =? COMMA); [|discriminate].
      apply IHe in H. pose proof (skip_ws_le r2). lia.
Qed.

Lemma rbind_decoder_outcome {A B} (r : result A) (k : A -> result B) :
  decoder_outcome r ->
  (forall a, r = Ok a -> decoder_outcome (k a)) ->
  decoder_outcome (rbind r k).
Proof.
  destruct r as [a|e]; simpl; intros Hr Hk; [apply Hk; reflexivity | exact Hr].
Qed.

Lemma scanstring_outcome s : decoder_outcome (Json.scanstring s).
Proof.
  induction s as [s IH] using str_length_ind.
  assert (step : forall s' (f : str -> str),
            (List.length s' < List.length s)%nat ->
            decoder_outcome
              (rbind (Json.scanstring s')
                 (fun x => let '(t0, rest) := x in Ok (f t0, rest)))).
  { intros s' f Hlen. apply rbind_decoder_outcome; [apply IH, Hlen|].
    intros [t0 rest] _. exact I. }
  destruct s as [|c s1]; [exact I|].
  cbn [Json.scanstring].
  destruct (c =? DQUOTE); [exact I|].
  destruct (c =? BACKSLASH).
  2:{ destruct (c <=? 31); [exact I|]. apply step. simpl. lia. }
  destruct s1 as [|e s2]; [exact I|].
  destruct (e =? 117).
  2:{ destruct (Json.unescape e) as [ch|]; [|exact I]. apply step. simpl. lia. }
  destruct s2 as [|h1 [|h2 [|h3 [|h4 [|x s3]]]]]; try exact I.
  destruct (Json.hex4 h1 h2 h3 h4) as [hi|]; [|exact I].
  assert (alone : decoder_outcome
                    (rbind (Json.scanstring (x :: s3))
                       (fun x0 => let '(t0, rest) := x0 in Ok (hi :: t0, rest)))).
  { apply (step (x :: s3) (cons hi)). simpl. lia. }
  destruct s3 as [|u [|g1 [|g2 [|g3 [|g4 [|y s4]]]]]]; try exact alone.
  destruct (Json.is_high_surrogate hi && (x =? BACKSLASH) && (u =? 117));
    [|exact alone].
  destruct (Json.hex4 g1 g2 g3 g4) as [lo|]; [|exact I].
  destruct (Json.is_low_surrogate lo); [|exact alone].
  apply (step (y :: s4) (cons (Json.join_surrogates hi lo))). simpl. lia.
Qed.

Lemma match_number_outcome s : decoder_outcome (Json.match_number s).
Proof.
  unfold Json.match_number.
  destruct (Json.match_sign s) as [neg s1].
  destruct (Json.match_digits s1) as [[ds r1]|]; [|exact I].
  destruct (Json.match_fraction r1) as [frac r2].
  destruct (Json.match_exponent r2) as [expo r3].
  destruct frac, expo; exact I.
Qed.

(** With more fuel than twice the length of the text no scanner runs out
    of it. *)
Lemma scan_fuel fuel :
  (forall s, (2 * List.length s < fuel)%nat ->
             decoder_outcome (Json.scan_once fuel s))
  /\ (forall s acc, (2 * List.length s < fuel)%nat ->
                    decoder_outcome (Json.members fuel s acc))
  /\ (forall s acc, (2 * List.length s + 1 < fuel)%nat ->
                    decoder_outcome (Json.elements fuel s acc)).
Proof.
  induction fuel as [|fuel (IHs & IHm & IHe)]; [repeat split; intros; lia|].
  destruct (scan_shorter fuel) as (Ss & Sm & Se).
  split; [|split].
  - intros [|c s] Hf; [exact I|]. cbn [Json.scan_once].
    simpl in Hf.
    destruct (c =? DQUOTE).
    { apply rbind_decoder_outcome; [apply scanstring_outcome|].
      intros [t rest] _. exact I. }
    destruct (c =? LBRACE).
    { destruct (Json.skip_ws s) as [|c' r'] eqn:Hw; [exact I|].
      apply skip_ws_cons_le in Hw.
      destruct (c' =? RBRACE); [exact I|].
      apply IHm. simpl. lia. }
    destruct (c =? LBRACKET).
    { destruct (Json.skip_ws s) as [|c' r'] eqn:Hw; [exact I|].
      apply skip_ws_cons_le in Hw.
      destruct (c' =? RBRACKET); [exact I|].
      apply IHe. simpl. lia. }
    destruct (Json.literal (c :: s)) as [[v0 r0]|]; [exact I|].
    apply match_number_outcome.
  - intros [|q s] acc Hf; [exact I|]. cbn [Json.members].
    simpl in Hf.
    destruct (q =? DQUOTE); [|exact I].
    apply rbind_decoder_outcome; [apply scanstring_outcome|].
    intros [key r1] Hs. apply scanstring_shorter in Hs.
    destruct (Json.skip_ws r1) as [|col r2] eqn:Hw1; [exact I|].
    apply skip_ws_cons_le in Hw1.
    destruct (col =? COLON); [|exact I].
    pose proof (skip_ws_le r2) as Hw2.
    apply rbind_decoder_outcome; [apply IHs; lia|].
    intros [v1 r3] Hv. apply Ss in Hv.
    destruct (Json.skip_ws r3) as [|d r4] eqn:Hw3; [exact I|].
    apply skip_ws_cons_le in Hw3.
    destruct (d =? RBRACE); [exact I|].
    destruct (d =? COMMA); [|exact I].
    apply IHm. pose proof (skip_ws_le r4). lia.
  - intros s acc Hf. cbn [Json.elements].
    apply rbind_decoder_outcome; [apply IHs; lia|].
    intros [v1 r1] Hv. apply Ss in Hv.
    destruct (Json.skip_ws r1) as [|d r2] eqn:Hw; [exact I|].
    apply skip_ws_cons_le in Hw.
    destruct (d =? RBRACKET); [exact I|].
    destruct (d =? COMMA); [|exact I].
    apply IHe. pose proof (skip_ws_le r2). lia.
Qed.

Lemma scan_once_fuel s :
  decoder_outcome (Json.scan_once (S (2 * List.length s)) s).
Proof. apply (proj1 (scan_fuel (S (2 * List.length s)))). lia. Qed.

(** [json.loads] returns a value or raises a [JSONDecodeError]. *)
Lemma loads_outcome s :
  match Json.loads s with
  | Ok _ | Raise (JSONDecodeError _) => True
  | Raise _ => False
  end.
Proof.
  unfold Json.loads. destruct (startswith [65279] s); [exact I|].
  unfold Json.raw_decode.
  pose proof (scan_once_fuel (Json.skip_ws s)) as H.
  destruct (Json.scan_once _ (Json.skip_ws s)) as [[obj rest]|e].
  - cbn [rbind]. destruct (Json.skip_ws rest); exact I.
  - destruct e; simpl in *; try exact I; try contradiction.
Qed.

(** An object is decoded to a [dict]. *)
Lemma members_VDict fuel : forall s acc v r,
  Json.members fuel s acc = Ok (v, r) -> exists d, v = VDict d.
Proof.
  induction fuel as [|fuel IH]; intros s acc v r; [discriminate|].
  destruct s as [|q s]; [discriminate|]. cbn [Json.members].
  destruct (q =? DQUOTE); [|discriminate].
  intros H. apply rbind_Ok in H as ([key r1] & _ & H).
  destruct (Json.skip_ws r1) as [|col r2]; [discriminate|].
  destruct (col =? COLON); [|discriminate].
  apply rbind_Ok in H as ([v1 r3] & _ & H).
  destruct (Json.skip_ws r3) as [|d r4]; [discriminate|].
  destruct (d =? RBRACE).
  - injection H as <- _. eexists. reflexivity.
  - destruct (d =? COMMA); [|discriminate]. apply IH in H. exact H.
Qed.

Lemma loads_brace_VDict r v :
  Json.loads (LBRACE :: r) = Ok v -> exists d, v = VDict d.
Proof.
  unfold Json.loads.
  change (startswith [65279] (LBRACE :: r)) with false. cbv iota.
  change (Json.skip_ws (LBRACE :: r)) with (LBRACE :: r).
  unfold Json.raw_decode. cbn [Json.scan_once].
  change (LBRACE =? DQUOTE) with false. change (LBRACE =? LBRACE) with true.
  cbv iota.
  destruct (Json.skip_ws r) as [|c' r'].
  { discriminate. }
  destruct (c' =? RBRACE).
  { cbn [rbind]. destruct (Json.skip_ws r'); [|discriminate].
    intros H. injection H as <-. eexists. reflexivity. }
  destruct (Json.members _ (c' :: r') []) as [[obj rest]|e] eqn:Hm.
  - apply members_VDict in Hm as (d & ->). cbn [rbind].
    destruct (Json.skip_ws rest); [|discriminate].
    intros H. injection H as <-. eexists. reflexivity.
  - destruct e; discriminate.
Qed.

Lemma search_braces_starts s g :
  search_braces s = Some g -> exists r, g = LBRACE :: r.
Proof.
  induction s as [|c s IH]; [discriminate|]. simpl.
  destruct (N.eqb_spec c LBRACE) as [->|]; [|exact IH].
  destruct (match_dotstar_rbrace s) as [m|]; [|exact IH].
  intros H. injection H as <-. eexists. reflexivity.
Qed.

(** The extraction returns, or raises the [RuntimeError] of line 87, or
    raises the [JSONDecodeError] of line 89; [obj.get] is always applied
    to a [dict]. *)
Lemma extract_feedback_outcome content :
  match extract_feedback content with
  | Ok _ | Raise (JSONDecodeError _) => True
  | Raise (RuntimeError msg) => msg = no_json_structure
  | Raise _ => False
  end.
Proof.
  rewrite extract_feedback_located.
  destruct (located_span content) as [g|] eqn:Hg; [|reflexivity].
  apply search_braces_starts in Hg as (r & ->).
  change (blank_controls (LBRACE :: r)) with (LBRACE :: blank_controls r).
  pose proof (loads_outcome (LBRACE :: blank_controls r)) as Ho.
  pose proof (loads_brace_VDict (blank_controls r)) as Hd.
  destruct (Json.loads (LBRACE :: blank_controls r)) as [v|e].
  - destruct (Hd v eq_refl) as (d & ->). exact I.
  - destruct e; simpl in *; try contradiction; exact I.
Qed.

End FuelFacts.

(** ** Examples *)

Example remove_fences_ex :
  remove_fences (u8 "```json{a}``` b `` c") = u8 "{a} b `` c".
Proof. reflexivity. Qed.

Example search_braces_ex :
  search_braces (u8 "x {a} y {b} z") = Some (u8 "{a} y {b}").
Proof. reflexivity. Qed.

Example loads_ex :
  Json.loads (py "{'a': [1, -2.5e3, true, null], 'b': {'c': 'x\n'}, 'a': {}}")
  = Ok (VDict [(u8 "a", VDict []);
               (u8 "b", VDict [(u8 "c", VStr [120; 10]%N)])]).
Proof. vm_compute. reflexivity. Qed.

Example loads_trailing_comma :
  Json.loads (py "{'a': 1,}") = Raise (JSONDecodeError ExpectingPropertyName).
Proof. vm_compute. reflexivity. Qed.

Example dumps_indent2_ex :
  Dumps.dumps_indent2 [(u8 "a", py "x'y"); (u8 "b", [])]
  = py "{
  'a': 'x\'y',
  'b': ''
}".
Proof. vm_compute. reflexivity. Qed.

Example extract_feedback_two_objects :
  extract_feedback (py "{'feedback':'a'} and {'feedback':'b'}")
  = Raise (JSONDecodeError ExtraData).
Proof. vm_compute. reflexivity. Qed.

Example sample_body_blanked :
  blank_controls sample_body = u8 "dose unclear; add storage advice".
Proof. vm_compute. reflexivity. Qed.

(** ** The feedback extraction *)

Section ExtractionClaims.

Open Scope N_scope.



(** C3.  A reply in which no opening brace stands before a closing brace
    makes the extraction raise the [RuntimeError] of line 87 (the
    malformed-output failure); nothing is returned. *)
Theorem extract_feedback_no_span_raises content :
  ~ has_brace_span content ->
  extract_feedback content = Raise (RuntimeError no_json_structure).
Proof.
  intros H. rewrite extract_feedback_located, located_span_None by exact H.
  reflexivity.
Qed.

Lemma extract_feedback_no_span_raises_witness :
  extract_feedback sample_no_span = Raise (RuntimeError no_json_structure).
Proof.
  apply (extract_feedback_no_span_raises sample_no_span).
  intros H. apply has_brace_span_search in H. apply H. reflexivity.
Defined.

(** C4.  What is decoded is the located span with every line feed,
    carriage return and tab replaced by one space, position by position,
    so that none of the three is left; with a line feed between [ok] and
    [line] inside the quotes the decoder alone refuses the span, and the
    extraction returns [ok line]. *)
Theorem controls_blanked_before_decoding :
  (forall content,
     extract_feedback content =
       match located_span content with
       | None => Raise (RuntimeError no_json_structure)
       | Some group0 =>
           rbind (Json.loads (blank_controls group0))
             (fun obj =>
                match obj with
                | VDict d => Ok (Dict.get (u8 "feedback") (VStr []) d)
                | _ => Raise AttributeError
                end)
       end)
  /\ (forall span i,
        nth_error (blank_controls span) i
        = option_map (fun c => if is_nrt c then SPACE else c) (nth_error span i))
  /\ (forall span, Forall (fun c => is_nrt c = false) (blank_controls span))
  /\ located_span newline_reply = Some newline_span
  /\ Json.loads newline_span = Raise (JSONDecodeError InvalidControlCharacter)
  /\ extract_feedback newline_reply = Ok (VStr (u8 "ok line")).
Proof.
  split; [intros; apply extract_feedback_located|].
  split; [intros; apply nth_error_map|].
  split.
  - intros span. unfold blank_controls. apply Forall_map, Forall_forall.
    intros c _. cbv beta. destruct (is_nrt c) eqn:E; [reflexivity | exact E].
  - repeat split; vm_compute; reflexivity.
Qed.

(** C7.  When the located span decodes to an object without a
    ["feedback"] entry, the extraction returns the empty string and does
    not raise. *)
Theorem extract_feedback_missing_field content group0 d :
  located_span content = Some group0 ->
  Json.loads (blank_controls group0) = Ok (VDict d) ->
  Dict.lookup (u8 "feedback") d = None ->
  extract_feedback content = Ok (VStr []).
Proof.
  intros Hspan Hobj Hmiss.
  rewrite extract_feedback_located, Hspan, Hobj. cbn [rbind].
  unfold Dict.get. rewrite Hmiss. reflexivity.
Qed.

Lemma extract_feedback_missing_field_witness :
  located_span sample_no_field = Some sample_no_field_span
  /\ extract_feedback sample_no_field = Ok (VStr []).
Proof.
  split; [vm_compute; reflexivity|].
  apply (extract_feedback_missing_field sample_no_field sample_no_field_span
           [(u8 "score", VInt 3); (u8 "notes", VList [])]);
    vm_compute; reflexivity.
Defined.

(** C10.  When the located span decodes to an object whose ["feedback"]
    entry is not a string, the extraction returns that value as it is:
    nothing checks or converts it, and nothing is raised. *)
Theorem extract_feedback_non_string content group0 d v :
  located_span content = Some group0 ->
  Json.loads (blank_controls group0) = Ok (VDict d) ->
  Dict.lookup (u8 "feedback") d = Some v ->
  is_VStr v = false ->
  extract_feedback content = Ok v.
Proof.
  intros Hspan Hobj Hv _.
  rewrite extract_feedback_located, Hspan, Hobj. cbn [rbind].
  unfold Dict.get. rewrite Hv. reflexivity.
Qed.

Lemma extract_feedback_non_string_witness :
  extract_feedback sample_nested
  = Ok (VDict [(u8 "score", VInt 3); (u8 "ok", VNone)]).
Proof.
  apply (extract_feedback_non_string sample_nested sample_nested
           [(u8 "feedback", VDict [(u8 "score", VInt 3); (u8 "ok", VNone)])]);
    vm_compute; reflexivity.
Defined.


End ExtractionClaims.

(** ** The two generation stages and the routes *)

Section ServiceClaims.

Variable E : env.

(** C5.  For every patient record, [generate_v1] makes exactly one
    exchange with the completion endpoint, at temperature 0.2 and with the
    draft prompt as its single user message, and its outcome is the
    outcome of that exchange: the text of the reply, unchanged. *)
Theorem generate_v1_one_call (p : Patient) (lg : log) :
  let rq := chat_request E (user (v1_prompt (Patient_dict p))) 0.2 in
  generate_v1 E (Patient_dict p) lg = (upstream E lg rq, lg ++ [rq])
  /\ temperature rq = 0.2%Q
  /\ messages rq = [{| role := u8 "user"; content := v1_prompt (Patient_dict p) |}]
  /\ List.length (snd (generate_v1 E (Patient_dict p) lg)) = S (List.length lg).
Proof.
  cbv zeta. split; [reflexivity|]. split; [reflexivity|]. split; [reflexivity|].
  unfold generate_v1, chat. cbn [snd]. rewrite length_app. simpl. lia.
Qed.

(** C2.  When the exchange of the feedback stage raises, [api_refine]
    has made that one exchange and no other, in particular none for the
    refine stage, and it raises: neither a feedback nor a refined document
    is returned, and the route answers with status 500. *)
Theorem api_refine_feedback_stage_fails
  (payload : value) (req : RefineRequest) (lg : log) (e : exn) :
  validate_RefineRequest E payload = Some req ->
  upstream E lg (critique_rq E req) = Raise e ->
  api_refine E req lg = (Raise (HTTPException 500 e), lg ++ [critique_rq E req])
  /\ post_api_refine E payload lg
     = ({| status := 500; body := Detail e |}, lg ++ [critique_rq E req]).
Proof.
  intros Hv H.
  assert (Hr : api_refine E req lg
               = (Raise (HTTPException 500 e), lg ++ [critique_rq E req])).
  { unfold api_refine, try_except, bind, self_refine_education, bind, chat.
    fold (critique_rq E req). rewrite H. reflexivity. }
  split; [exact Hr|].
  unfold post_api_refine, route. rewrite Hv, Hr. reflexivity.
Qed.

(** C6.  [api_refine] first makes the exchange of the feedback stage, at
    temperature 0; only when that exchange and the extraction succeed does
    it make a second exchange, at temperature 0.2, whose prompt is built
    from the extracted feedback; a feedback that is a string stands in
    that prompt verbatim. *)
Theorem api_refine_order (req : RefineRequest) (lg : log) :
  api_refine E req lg =
    match upstream E lg (critique_rq E req) with
    | Raise e => (Raise (HTTPException 500 e), lg ++ [critique_rq E req])
    | Ok reply =>
        match extract_feedback reply with
        | Raise e => (Raise (HTTPException 500 e), lg ++ [critique_rq E req])
        | Ok feedback =>
            (match upstream E (lg ++ [critique_rq E req]) (v3_rq E req feedback) with
             | Ok v3 => Ok (VDict [(u8 "feedback", feedback); (u8 "v3", VStr v3)])
             | Raise e => Raise (HTTPException 500 e)
             end,
             lg ++ [critique_rq E req; v3_rq E req feedback])
        end
    end
  /\ temperature (critique_rq E req) = 0%Q
  /\ (forall feedback, temperature (v3_rq E req feedback) = 0.2%Q)
  /\ (forall s, exists before behind,
        messages (v3_rq E req (VStr s))
        = [{| role := u8 "user"; content := before ++ s ++ behind |}]).
Proof.
  split; [|split; [reflexivity|split; [reflexivity|]]].
  - unfold api_refine, try_except, bind, self_refine_education, bind, chat, lift.
    fold (critique_rq E req).
    destruct (upstream E lg (critique_rq E req)) as [reply|e]; [|reflexivity].
    destruct (extract_feedback reply) as [feedback|e]; [|reflexivity].
    unfold generate_v3, chat, ret. fold (v3_rq E req feedback).
    rewrite <- app_assoc. cbn [app].
    destruct (upstream E (lg ++ [critique_rq E req]) (v3_rq E req feedback));
      reflexivity.
  - intros s.
    exists (v3_head ++ Dumps.dumps_indent2 (Patient_dict (patient req)) ++ v3_mid
            ++ v1 req ++ v3_feedback), v3_tail.
    unfold v3_rq, chat_request, user, v3_prompt, format_value. cbn [messages].
    repeat rewrite <- app_assoc. reflexivity.
Qed.

(** C8, as the code has it.  A payload whose patient lacks one of the six
    fields, or carries there a value the validation does not take for
    text, is refused before the endpoint function runs: no exchange is
    made, and the answer is the validation failure with status 422, on
    both POST routes. *)
Theorem invalid_patient_answered_422 (b d : Dict.t) (k : str) (lg : log) :
  In k patient_fields ->
  Dict.lookup (u8 "patient") b = Some (VDict d) ->
  (Dict.lookup k d = None
   \/ exists v, Dict.lookup k d = Some v /\ validate_str E v = None) ->
  post_api_v1 E (VDict b) lg = ({| status := 422; body := ValidationErrors |}, lg)
  /\ post_api_refine E (VDict b) lg
     = ({| status := 422; body := ValidationErrors |}, lg).
Proof.
  intros Hk Hp Hbad.
  assert (Hf : field E k d = None).
  { unfold field. destruct Hbad as [->|(v & -> & Hv)]; [reflexivity | exact Hv]. }
  assert (Hpat : validate_Patient E (VDict d) = None).
  { unfold validate_Patient.
    destruct Hk as [<-|[<-|[<-|[<-|[<-|[<-|[]]]]]]]; rewrite Hf;
      repeat match goal with
             | |- context [match field E ?key d with _ => _ end] =>
                 destruct (field E key d)
             end; reflexivity. }
  split.
  - unfold post_api_v1, route, validate_V1Request. rewrite Hp, Hpat. reflexivity.
  - unfold post_api_refine, route, validate_RefineRequest. rewrite Hp.
    destruct (field E (u8 "v1") b); [rewrite Hpat|]; reflexivity.
Qed.

End ServiceClaims.

(** C9.  [GET /ping] answers ["pong"] with status 200 whatever the log of
    exchanges holds, leaves that log as it is, and takes nothing from the
    surroundings: neither [ping] nor its route has the completion endpoint
    among its arguments. *)
Theorem ping_pong (lg : log) :
  ping lg = (Ok (VStr (u8 "pong")), lg)
  /\ get_ping lg = ({| status := 200; body := Content (VStr (u8 "pong")) |}, lg).
Proof. split; reflexivity. Qed.

(** C8, as it is stated, fails: a payload without the dosage is answered
    with status 422, not through the status 500 of the endpoint
    functions. *)
Lemma missing_field_not_500 :
  Dict.lookup (u8 "用量") patient_without_dosage = None
  /\ post_api_v1 (env_replying []) (VDict payload_without_dosage) []
     = ({| status := 422; body := ValidationErrors |}, [])
  /\ status (fst (post_api_v1 (env_replying []) (VDict payload_without_dosage) []))
     <> 500%Z.
Proof.
  split; [vm_compute; reflexivity|].
  split; [vm_compute; reflexivity|].
  vm_compute. intros H. discriminate H.
Qed.

Lemma invalid_patient_answered_422_witness :
  post_api_v1 (env_replying []) (VDict payload_without_dosage) []
  = ({| status := 422; body := ValidationErrors |}, [])
  /\ post_api_refine (env_replying []) (VDict payload_without_dosage) []
     = ({| status := 422; body := ValidationErrors |}, []).
Proof.
  apply (invalid_patient_answered_422 (env_replying [])
           payload_without_dosage patient_without_dosage (u8 "用量") []).
  - unfold patient_fields. do 5 right. left. reflexivity.
  - vm_compute. reflexivity.
  - left. vm_compute. reflexivity.
Defined.

Lemma api_refine_feedback_stage_fails_witness :
  api_refine env_failing sample_request []
  = (Raise (HTTPException 500 (UpstreamError (u8 "timed out"))),
     [] ++ [critique_rq env_failing sample_request])
  /\ post_api_refine env_failing sample_payload []
     = ({| status := 500; body := Detail (UpstreamError (u8 "timed out")) |},
        [] ++ [critique_rq env_failing sample_request]).
Proof.
  apply (api_refine_feedback_stage_fails env_failing sample_payload
           sample_request [] (UpstreamError (u8 "timed out"))).
  - vm_compute. reflexivity.
  - reflexivity.
Defined.

